(** * Heart-risk prediction service: feature normalizer and risk tiering

    A shallow embedding of [app.py]: the [SCALERS] table, [MODEL_FEATURES],
    [process_input_value], the [/predict] handler, the loading of the
    model and the [__main__] block, over a model of the Python values and
    builtins the code applies to them ([str], [float], [int],
    [str.lower], [max], [min], the float operators).

    Python's [float] is IEEE 754 binary64; it is modelled by Rocq's
    primitive [float], which is the same format with the same rounding. *)

From Stdlib Require Import ZArith Zpower List String Ascii Bool Lia Floats
  DecimalString DecimalPos.
Import ListNotations.

Set Warnings "-inexact-float".
Local Open Scope string_scope.
Local Open Scope Z_scope.

(** ** Python values, exceptions and builtins *)

Module Py.

(** The exceptions the modelled builtins raise, and the ones a
    collaborator (the model object, the request) may raise. *)
Inductive exn : Type :=
| TypeError
| ValueError
| OverflowError
| ZeroDivisionError
| KeyError
| AttributeError
| OtherError (msg : string).

(** A computation that returns or raises. *)
Inductive result (A : Type) : Type :=
| Return (a : A)
| Raise (e : exn).
Arguments Return {A} a.
Arguments Raise {A} e.

Definition bind {A B : Type} (r : result A) (k : A -> result B) : result B :=
  match r with
  | Return a => k a
  | Raise e => Raise e
  end.

(** [try: body  except: handler] with a bare [except]. *)
Definition try_except {A : Type} (body : result A) (handler : result A) : result A :=
  match body with
  | Return a => Return a
  | Raise _ => handler
  end.

(** The scalar JSON values a request field can hold: [None], a bool,
    an int, a float (NaN and the infinities included, which the JSON
    decoder accepts) or a str. Arrays and objects as field values are
    left out of the model. *)
Inductive value : Type :=
| VNone
| VBool (b : bool)
| VInt (z : Z)
| VFloat (f : float)
| VStr (s : string).

(** *** Characters and strings *)

Definition is_upper (c : ascii) : bool :=
  let n := nat_of_ascii c in (65 <=? n)%nat && (n <=? 90)%nat.

Definition is_digit (c : ascii) : bool :=
  let n := nat_of_ascii c in (48 <=? n)%nat && (n <=? 57)%nat.

(** C's [isspace] in the C locale: space, and tab to carriage return. *)
Definition is_space (c : ascii) : bool :=
  let n := nat_of_ascii c in (n =? 32)%nat || ((9 <=? n)%nat && (n <=? 13)%nat).

Definition lower_char (c : ascii) : ascii :=
  if is_upper c then ascii_of_nat (nat_of_ascii c + 32) else c.

(** [s.lower()]. A string is its sequence of bytes: the ASCII letters
    are lowered and every other byte is kept (no character outside
    ASCII lowers to a letter of the tokens the normalizer compares
    with). *)
Fixpoint lower (s : string) : string :=
  match s with
  | EmptyString => EmptyString
  | String c s' => String (lower_char c) (lower s')
  end.

(** [x in [a, b, ...]] for strings. *)
Definition str_in (x : string) (l : list string) : bool :=
  existsb (String.eqb x) l.

(** [str(n)] for an int, in decimal and of any length. *)
Definition str_of_int (z : Z) : string :=
  NilZero.string_of_int (Z.to_int z).

Definition digit_value (c : ascii) : Z :=
  Z.of_nat (nat_of_ascii c) - 48.

(** *** Conversions to float *)

(** [float(n)] for an int: the nearest double, ties to even;
    [OverflowError] when that is beyond the largest double. *)
Definition float_of_int (z : Z) : result float :=
  let f := SF2Prim (binary_normalize prec emax z 0 false) in
  if is_infinity f then Raise OverflowError else Return f.

(** The double nearest to [(-1)^s * d * 10^k], for [0 <= d]. The two
    early exits keep the powers of ten small: a decimal with more than
    400 digits before the point is beyond every double, one that starts
    more than 400 places after the point rounds to zero. *)
Definition decimal_digits (d : Z) : Z :=
  Z.of_nat (String.length (str_of_int d)).

Definition float_of_decimal (s : bool) (d k : Z) : float :=
  if d <=? 0 then SF2Prim (S754_zero s)
  else if 400 <? decimal_digits d + k then SF2Prim (S754_infinity s)
  else if decimal_digits d + k <? -400 then SF2Prim (S754_zero s)
  else if 0 <=? k then
    SF2Prim (binary_normalize prec emax ((if s then -1 else 1) * (d * 10 ^ k)) 0 false)
  else
    SF2Prim (SFdiv prec emax (S754_finite s (Z.to_pos d) 0)
                             (S754_finite false (Z.to_pos (10 ^ (- k))) 0)).

Fixpoint lstrip (s : list ascii) : list ascii :=
  match s with
  | c :: s' => if is_space c then lstrip s' else s
  | [] => []
  end.

Definition strip (s : list ascii) : list ascii :=
  rev (lstrip (rev (lstrip s))).

(** An underscore is accepted between two digits and dropped; anywhere
    else it makes the text invalid ([prev] is the previous character). *)
Fixpoint drop_underscores (prev : ascii) (s : list ascii) : option (list ascii) :=
  match s with
  | [] => if Ascii.eqb prev "_" then None else Some []
  | c :: s' =>
      if Ascii.eqb c "_" then
        if is_digit prev then drop_underscores c s' else None
      else if Ascii.eqb prev "_" && negb (is_digit c) then None
      else option_map (cons c) (drop_underscores c s')
  end.

(** The longest prefix of digits, as a number with its length, and the rest. *)
Fixpoint take_digits (acc n : Z) (s : list ascii) : Z * Z * list ascii :=
  match s with
  | c :: s' => if is_digit c then take_digits (10 * acc + digit_value c) (n + 1) s'
               else (acc, n, s)
  | [] => (acc, n, [])
  end.

Definition take_sign (s : list ascii) : bool * list ascii :=
  match s with
  | "-"%char :: s' => (true, s')
  | "+"%char :: s' => (false, s')
  | _ => (false, s)
  end.

(** The exponent part: nothing, or [e] or [E], an optional sign and at
    least one digit, up to the end of the text. *)
Definition parse_exponent (s : list ascii) : option Z :=
  match s with
  | [] => Some 0
  | c :: s' =>
      if Ascii.eqb c "e" || Ascii.eqb c "E" then
        let '(neg, s'') := take_sign s' in
        match take_digits 0 0 s'' with
        | (e, n, []) => if 0 <? n then Some (if neg then - e else e) else None
        | _ => None
        end
      else None
  end.

(** [float(s)] for a str: surrounding white space is dropped, then a
    sign, then [inf], [infinity] or [nan] in any case, or a decimal
    numeral with an optional fraction and exponent. This is Python's
    grammar on ASCII text; the digits and spaces of other scripts, which
    Python reads too, are invalid here. *)
Definition float_of_str (s : string) : result float :=
  match drop_underscores " " (strip (list_ascii_of_string s)) with
  | None => Raise ValueError
  | Some t =>
      let '(neg, u) := take_sign t in
      let word := lower (string_of_list_ascii u) in
      if str_in word ["inf"; "infinity"] then
        Return (if neg then neg_infinity else infinity)
      else if String.eqb word "nan" then Return nan
      else
        let '(ip, ni, r1) := take_digits 0 0 u in
        let '(d, nf, r2) :=
          match r1 with
          | "."%char :: r => take_digits ip 0 r
          | _ => (ip, 0, r1)
          end in
        if (ni + nf) <=? 0 then Raise ValueError
        else
          match parse_exponent r2 with
          | Some e => Return (float_of_decimal neg d (e - nf))
          | None => Raise ValueError
          end
  end.

(** [float(v)]. *)
Definition float_ (v : value) : result float :=
  match v with
  | VNone => Raise TypeError
  | VBool b => Return (if b then 1%float else 0%float)
  | VInt z => float_of_int z
  | VFloat f => Return f
  | VStr s => float_of_str s
  end.

(** [int(f)] for a float: truncation towards zero. *)
Definition int_of_float (f : float) : result Z :=
  match Prim2SF f with
  | S754_zero _ => Return 0
  | S754_infinity _ => Raise OverflowError
  | S754_nan => Raise ValueError
  | S754_finite s m e =>
      let a := Z.shiftl (Zpos m) e in
      Return (if s then - a else a)
  end.

(** *** [str] *)

(** The decimal [c * 10^k] reads back as the double [x]. *)
Definition reads_back (x : float) (c k : Z) : bool :=
  Leibniz.eqb (float_of_decimal false c k) x.

(** [10^t <= num / den]. *)
Definition pow10_le (t num den : Z) : bool :=
  if 0 <=? t then 10 ^ t * den <=? num else den <=? num * 10 ^ (- t).

(** The decimal exponent [t] with [10^t <= num / den < 10^(t+1)]. *)
Definition floor_log10 (num den : Z) : Z :=
  let t := decimal_digits num - decimal_digits den in
  if pow10_le t num den then t else t - 1.

(** The shortest decimal that reads back as [x = num / den]: with [n]
    significant digits, [n] from [17 - fuel], the two [n]-digit decimals
    around [x] are tried, the nearer one first. Seventeen digits always
    read back. *)
Fixpoint shortest_digits (fuel : nat) (n : Z) (x : float) (num den : Z) : Z * Z :=
  let k := floor_log10 num den - n + 1 in
  let N := if 0 <=? k then num else num * 10 ^ (- k) in
  let D := if 0 <=? k then den * 10 ^ k else den in
  let lo := N / D in
  let r := N mod D in
  let '(c1, c2) := if 2 * r <=? D then (lo, lo + 1) else (lo + 1, lo) in
  match fuel with
  | O => (c1, k)
  | S fuel' =>
      if reads_back x c1 k then (c1, k)
      else if reads_back x c2 k then (c2, k)
      else shortest_digits fuel' (n + 1) x num den
  end.

Fixpoint drop_zeros (fuel : nat) (c k : Z) : Z * Z :=
  match fuel with
  | O => (c, k)
  | S fuel' => if (c mod 10 =? 0) && negb (c =? 0) then drop_zeros fuel' (c / 10) (k + 1)
               else (c, k)
  end.

Fixpoint zeros (n : nat) : string :=
  match n with
  | O => EmptyString
  | S n' => String "0" (zeros n')
  end.

(** The digits [ds] with the decimal point after [decpt] of them, in
    the layout of [repr]: exponent notation below [1e-4] and from
    [1e16] on. *)
Definition layout (ds : string) (decpt : Z) : string :=
  let len := Z.of_nat (String.length ds) in
  if (decpt <=? -4) || (16 <? decpt) then
    let e := decpt - 1 in
    let es := str_of_int (Z.abs e) in
    substring 0 1 ds
      ++ (if 1 <? len then "." ++ substring 1 (String.length ds - 1) ds else EmptyString)
      ++ "e" ++ (if e <? 0 then "-" else "+")
      ++ (if Z.abs e <? 10 then "0" else EmptyString) ++ es
  else if decpt <=? 0 then "0." ++ zeros (Z.to_nat (- decpt)) ++ ds
  else if len <=? decpt then ds ++ zeros (Z.to_nat (decpt - len)) ++ ".0"
  else substring 0 (Z.to_nat decpt) ds ++ "."
         ++ substring (Z.to_nat decpt) (String.length ds - Z.to_nat decpt) ds.

(** [repr(f)] for a float, which is also [str(f)]. *)
Definition repr_float (f : float) : string :=
  match Prim2SF f with
  | S754_nan => "nan"
  | S754_infinity s => if s then "-inf" else "inf"
  | S754_zero s => if s then "-0.0" else "0.0"
  | S754_finite s m e =>
      let num := if 0 <=? e then Zpos m * 2 ^ e else Zpos m in
      let den := if 0 <=? e then 1 else 2 ^ (- e) in
      let '(c0, k0) := shortest_digits 16 1 (abs f) num den in
      let '(c, k) := drop_zeros 20 c0 k0 in
      let ds := str_of_int c in
      (if s then "-" else EmptyString) ++ layout ds (Z.of_nat (String.length ds) + k)
  end.

(** [str(v)]. *)
Definition str (v : value) : string :=
  match v with
  | VNone => "None"
  | VBool b => if b then "True" else "False"
  | VInt z => str_of_int z
  | VFloat f => repr_float f
  | VStr s => s
  end.

(** *** Dictionaries with string keys, in insertion order *)

Definition dict (A : Type) : Type := list (string * A).

Fixpoint lookup {A : Type} (d : dict A) (k : string) : option A :=
  match d with
  | [] => None
  | (k', a) :: d' => if String.eqb k k' then Some a else lookup d' k
  end.

(** [k in d]. *)
Definition contains {A : Type} (k : string) (d : dict A) : bool :=
  match lookup d k with
  | Some _ => true
  | None => false
  end.

(** [d[k]]. *)
Definition getitem {A : Type} (d : dict A) (k : string) : result A :=
  match lookup d k with
  | Some a => Return a
  | None => Raise KeyError
  end.

(** [d.get(k)], whose default is [None]. *)
Definition get (d : dict value) (k : string) : value :=
  match lookup d k with
  | Some v => v
  | None => VNone
  end.

(** *** Arithmetic *)

(** [x - n] and [x / n] for a float [x] and an int [n]: the int is
    converted first, and a zero divisor raises. *)
Definition sub_int (x : float) (n : Z) : result float :=
  bind (float_of_int n) (fun y => Return (x - y)%float).

Definition div_int (x : float) (n : Z) : result float :=
  bind (float_of_int n) (fun y =>
    if PrimFloat.eqb y 0 then Raise ZeroDivisionError else Return (x / y)%float).

(** [max(a, b)] and [min(a, b)] on floats: the first argument unless
    the second is strictly beyond it. *)
Definition max (a b : float) : float := if PrimFloat.ltb a b then b else a.
Definition min (a b : float) : float := if PrimFloat.ltb b a then b else a.

End Py.

Notation "x <- m ;; k" := (Py.bind m (fun x => k))
  (at level 61, m at next level, right associativity).

(** ** Feature configuration *)

(** The 18 feature names, in the order of [model.feature_names_in_]. *)
Definition MODEL_FEATURES : list string :=
  [ "General_Health"; "Checkup"; "Exercise"; "Skin_Cancer"; "Other_Cancer";
    "Depression"; "Diabetes"; "Arthritis"; "Sex"; "Age"; "Height"; "Weight";
    "BMI"; "Smoking"; "Alcohol"; "Fruit"; "Green_Vegetables"; "Fried_Potato" ].

(** An entry of [SCALERS] is a dict that either has the keys ['min'] and
    ['max'] (the test ['min' in config]) or maps labels to floats. *)
Inductive config : Type :=
| Range (min max : Z)
| Categories (table : Py.dict float).

Definition SCALERS : Py.dict config :=
  [ ("Weight", Range 30 300);
    ("Height", Range 90 250);
    ("BMI", Range 10 100);
    ("Age", Range 18 80);
    ("Fruit", Range 0 100);
    ("Green_Vegetables", Range 0 100);
    ("Fried_Potato", Range 100 0);
    ("Alcohol", Range 30 0);
    ("General_Health",
       Categories [ ("Excellent", 1.0); ("Very_Good", 0.75); ("Good", 0.5);
                    ("Fair", 0.25); ("Poor", 0.0) ]%float);
    ("Checkup",
       Categories [ ("Within 1 year", 1.0); ("1-2 years", 0.75);
                    ("2-5 years", 0.5); ("5+ years", 0.25); ("Never", 0.0) ]%float);
    ("Diabetes",
       Categories [ ("No", 0.0); ("Borderline", 0.33);
                    ("During Pregnancy", 0.66); ("Yes", 1.0) ]%float);
    ("Sex", Categories [ ("0", 1.0); ("1", 0.0) ]%float);
    ("Exercise", Categories [ ("0", 0.0); ("1", 1.0) ]%float);
    ("Smoking", Categories [ ("0", 0.0); ("1", 1.0) ]%float) ].

(** ** The normalizer *)

(** The numeric-range branch: the body of its [try]. *)
Definition scale (min max : Z) (value : Py.value) : Py.result float :=
  val <- Py.float_ value ;;
  d <- Py.sub_int val min ;;
  norm_val <- Py.div_int d (max - min) ;;
  Py.Return (Py.max 0.0 (Py.min 1.0 norm_val)).

(** The second lookup of the categorical branch, [str(int(float(value)))]
    as a key: [Some x] when the function returns [x] there, [None] when
    the key is absent or the conversion raised (the [except: pass]). *)
Definition numeric_key (table : Py.dict float) (value : Py.value) : option float :=
  match (f <- Py.float_ value ;;
         n <- Py.int_of_float f ;;
         if Py.contains (Py.str_of_int n) table
         then x <- Py.getitem table (Py.str_of_int n) ;; Py.Return (Some x)
         else Py.Return None) with
  | Py.Return r => r
  | Py.Raise _ => None
  end.

Definition process_input_value (value : Py.value) (feature_name : string)
  : Py.result float :=
  let val_str := Py.lower (Py.str value) in
  (* 1. the checkbox test, whose body is [pass] *)
  let _ := if Py.str_in val_str ["on"; "true"; "yes"; "1"]
              && negb (Py.contains feature_name SCALERS) then tt else tt in
  (* 2. configured scalers *)
  if Py.contains feature_name SCALERS then
    config <- Py.getitem SCALERS feature_name ;;
    match config with
    | Range min max =>
        Py.try_except (scale min max value) (Py.Return 0.0%float)
    | Categories table =>
        if Py.contains (Py.str value) table then Py.getitem table (Py.str value)
        else
          match numeric_key table value with
          | Some x => Py.Return x
          | None =>
              if Py.str_in val_str ["on"; "true"; "yes"] then Py.Return 1.0%float
              else if Py.str_in val_str ["off"; "false"; "no"] then Py.Return 0.0%float
              else Py.Return 0.0%float
          end
    end
  else
    (* 3. raw numeric value *)
    match Py.float_ value with
    | Py.Return f => Py.Return f
    | Py.Raise _ =>
        (* 4. final boolean fallback *)
        if Py.str_in val_str ["on"; "true"; "yes"] then Py.Return 1.0%float
        else if Py.str_in val_str ["off"; "false"; "no"; "0"] then Py.Return 0.0%float
        else Py.Return 0.0%float
    end.

(** ** The [/predict] handler *)

(** The loaded model, as the handler uses it:
    [model.predict_proba(input_array)[0][1]] and
    [int(model.predict(input_array)[0])]. Either call may raise. *)
Record Model : Type := {
  predict_proba : list (list float) -> Py.result float;
  model_predict : list (list float) -> Py.result Z
}.

(** [request.json]: a JSON object, or any other JSON document. *)
Inductive body : Type :=
| JsonObject (fields : Py.dict Py.value)
| JsonOther.

(** [data.get(feature)]: only a dict has the method. *)
Definition data_get (data : body) (feature : string) : Py.result Py.value :=
  match data with
  | JsonObject fields => Py.Return (Py.get fields feature)
  | JsonOther => Py.Raise Py.AttributeError
  end.

(** What the handler logs and what it asks of the model, in order. *)
Inductive event : Type :=
| LogReceived (data : body)
| LogInputVector (input_vector : list float)
| LogResult (prediction_class : Z) (prediction_prob : float)
| LogError (e : Py.exn)
| CallPredictProba (input_array : list (list float))
| CallPredict (input_array : list (list float)).

(** The JSON payload of a response. *)
Inductive payload : Type :=
| ModelNotLoaded
| Failed (e : Py.exn)
| Prediction (probability : float) (class : Z) (risk_level : Z).

Definition response : Type := payload * Z.

(** The handler's effects: a trace of events next to the result. *)
Definition M (A : Type) : Type := list event -> Py.result A * list event.

Definition ret {A : Type} (a : A) : M A := fun t => (Py.Return a, t).

Definition lift {A : Type} (r : Py.result A) : M A := fun t => (r, t).

Definition emit (ev : event) : M unit := fun t => (Py.Return tt, (t ++ [ev])%list).

Definition bindM {A B : Type} (m : M A) (k : A -> M B) : M B :=
  fun t =>
    match m t with
    | (Py.Return a, t') => k a t'
    | (Py.Raise e, t') => (Py.Raise e, t')
    end.

Notation "x <~ m ;; k" := (bindM m (fun x => k))
  (at level 61, m at next level, right associativity).
Notation "m ;;; k" := (bindM m (fun _ => k))
  (at level 61, right associativity).

(** The loop over [MODEL_FEATURES], appending to [input_vector]. *)
Fixpoint build_vector (data : body) (features : list string) (input_vector : list float)
  : Py.result (list float) :=
  match features with
  | [] => Py.Return input_vector
  | feature :: rest =>
      raw_val <- data_get data feature ;;
      processed_val <- process_input_value raw_val feature ;;
      build_vector data rest (input_vector ++ [processed_val])%list
  end.

(** The probability thresholds of the five risk levels. *)
Definition risk_level_of (prediction_prob : float) : Z :=
  if (prediction_prob <=? 0.30)%float then 1
  else if (prediction_prob <=? 0.45)%float then 2
  else if (prediction_prob <=? 0.60)%float then 3
  else if (prediction_prob <=? 0.80)%float then 4
  else 5.

(** The body of the handler's [try], past the model check. *)
Definition predict_body (model : Model) (request_json : Py.result body) : M response :=
  data <~ lift request_json ;;
  emit (LogReceived data) ;;;
  input_vector <~ lift (build_vector data MODEL_FEATURES []) ;;
  emit (LogInputVector input_vector) ;;;
  let input_array := [input_vector] in
  emit (CallPredictProba input_array) ;;;
  prediction_prob <~ lift (predict_proba model input_array) ;;
  emit (CallPredict input_array) ;;;
  prediction_class <~ lift (model_predict model input_array) ;;
  emit (LogResult prediction_class prediction_prob) ;;;
  ret (Prediction prediction_prob prediction_class (risk_level_of prediction_prob), 200).

(** [predict()], for the module-level [model] ([None] when loading
    failed) and the request's JSON. *)
Definition predict (model : option Model) (request_json : Py.result body)
  : response * list event :=
  match model with
  | None => ((ModelNotLoaded, 500), [])
  | Some m =>
      match predict_body m request_json [] with
      | (Py.Return r, t) => (r, t)
      | (Py.Raise e, t) => ((Failed e, 500), (t ++ [LogError e])%list)
      end
  end.

(** ** Loading the model *)



(** ** The [__main__] block *)

(** [int(s)] for a str, in base ten: surrounding white space is
    dropped, then an optional sign and at least one digit, with single
    underscores between digits, a numeral of any length. As for [float],
    this is Python's grammar on ASCII text. *)
Definition int_of_str (s : string) : Py.result Z :=
  match Py.drop_underscores " " (Py.strip (list_ascii_of_string s)) with
  | None => Py.Raise Py.ValueError
  | Some t =>
      let '(neg, u) := Py.take_sign t in
      match Py.take_digits 0 0 u with
      | (d, n, []) => if 0 <? n then Py.Return (if neg then - d else d)
                      else Py.Raise Py.ValueError
      | _ => Py.Raise Py.ValueError
      end
  end.

(** The [__main__] block: [environ_PORT] is [os.environ.get("PORT")],
    a string when the variable is set; the default 7860 is an int
    already. The result is the host and port handed to [app.run]. *)
Definition main (environ_PORT : option string) : Py.result (string * Z) :=
  port <- match environ_PORT with
          | Some s => int_of_str s
          | None => Py.Return 7860
          end ;;
  Py.Return ("0.0.0.0", port).

(** ** Vocabulary of the statements *)

(** Not a NaN. *)
Definition is_number (x : float) : Prop := Prim2SF x <> S754_nan.

(** [p] lies in the closed interval from 0.0 to 1.0. *)
Definition in_unitb (p : float) : bool := ((0 <=? p) && (p <=? 1))%float.

Definition in_unit (p : float) : Prop := in_unitb p = true.

(** The clamp of the range branch, [max(0.0, min(1.0, x))]. *)
Definition clamp (x : float) : float := Py.max 0.0 (Py.min 1.0 x).

(** The double an int is converted to, when it is not too large. *)
Definition to_float (n : Z) : float := SF2Prim (binary_normalize prec emax n 0 false).

(** A range whose bounds convert to floats and whose width is not zero:
    the arithmetic of [scale] raises nothing on it. *)
Definition range_ok (min max : Z) : bool :=
  match Py.float_of_int min, Py.float_of_int (max - min) with
  | Py.Return _, Py.Return w => negb (PrimFloat.eqb w 0)
  | _, _ => false
  end.

(** What holds of every entry of [SCALERS], checked by evaluation: the
    ranges are [range_ok], the category values lie in the unit interval. *)
Definition config_ok (c : config) : bool :=
  match c with
  | Range min max => range_ok min max
  | Categories table => forallb in_unitb (map snd table)
  end.

(** The fields whose entry in [SCALERS] is a numeric range. *)
Definition linear_fields : list string :=
  [ "Weight"; "Height"; "BMI"; "Age"; "Fruit"; "Green_Vegetables";
    "Fried_Potato"; "Alcohol" ].

(** The fallback steps of the normalizer: the categorical branch once
    both lookups have missed, and the unconfigured branch once [float]
    has raised. *)
Definition reaches_fallback (value : Py.value) (feature_name : string) : Prop :=
  match Py.lookup SCALERS feature_name with
  | Some (Range _ _) => False
  | Some (Categories table) =>
      Py.contains (Py.str value) table = false /\ numeric_key table value = None
  | None => exists e, Py.float_ value = Py.Raise e
  end.

(** ** Vocabulary of the rounding proofs *)


(** The first power of two beyond the doubles, [2^1024], in the same
    units; the infinities are given this value. *)
Definition INF : Z := 2 ^ 2098.










(** [f] on the finite values, the infinities kept. *)
Definition ext (f : Z -> Z) (v : Z) : Z :=
  if v =? INF then INF else if v =? - INF then - INF else f v.





(** The canonical fields that have no entry in [SCALERS]. *)
Definition unscaled_fields : list string :=
  [ "Skin_Cancer"; "Other_Cancer"; "Depression"; "Arthritis" ].

(** The integers from [lo] up to [hi - 1]. *)
Definition zrange (lo hi : Z) : list Z :=
  map (fun n => lo + Z.of_nat n) (seq 0 (Z.to_nat (hi - lo))).

(** The normalized values of the ints [a] and [b] are strictly ordered,
    upwards when [up] holds and downwards otherwise. *)
Definition strictly_ordered (feature_name : string) (up : bool) (a b : Z) : bool :=
  match process_input_value (Py.VInt a) feature_name,
        process_input_value (Py.VInt b) feature_name with
  | Py.Return ra, Py.Return rb => if up then (ra <? rb)%float else (rb <? ra)%float
  | _, _ => false
  end.

(** Every int of the range is strictly ordered with its successor. *)
Definition neighbours_ordered (feature_name : string) (min max : Z) : bool :=
  forallb (fun a => strictly_ordered feature_name (min <? max) a (a + 1))
          (zrange (Z.min min max) (Z.max min max)).

(** The fields whose category map has the keys "0" and "1". *)
Definition binary_fields : list string := [ "Sex"; "Exercise"; "Smoking" ].

(** The number a sequence of decimal digits denotes, after [acc]. *)
Fixpoint uint_value (acc : Z) (d : Decimal.uint) : Z :=
  match d with
  | Decimal.Nil => acc
  | Decimal.D0 d' => uint_value (10 * acc + 0) d'
  | Decimal.D1 d' => uint_value (10 * acc + 1) d'
  | Decimal.D2 d' => uint_value (10 * acc + 2) d'
  | Decimal.D3 d' => uint_value (10 * acc + 3) d'
  | Decimal.D4 d' => uint_value (10 * acc + 4) d'
  | Decimal.D5 d' => uint_value (10 * acc + 5) d'
  | Decimal.D6 d' => uint_value (10 * acc + 6) d'
  | Decimal.D7 d' => uint_value (10 * acc + 7) d'
  | Decimal.D8 d' => uint_value (10 * acc + 8) d'
  | Decimal.D9 d' => uint_value (10 * acc + 9) d'
  end.

(** * Properties *)

(** ** The order on floats *)

Section FloatOrder.

Local Open Scope float_scope.

Lemma SFcompare_antisym (x y : spec_float) :
  SFcompare y x = option_map CompOpp (SFcompare x y).
Proof.
  destruct x as [sx|sx| |sx mx ex], y as [sy|sy| |sy my ey]; simpl;
    try destruct sx; try destruct sy; try reflexivity;
    rewrite (Z.compare_antisym ex ey); destruct (ex ?= ey)%Z; simpl;
    try reflexivity;
    rewrite (Pos.compare_cont_antisym mx my Eq); simpl;
    try rewrite CompOpp_involutive; reflexivity.
Qed.

Lemma SFcompare_nan (x y : spec_float) :
  SFcompare x y = None -> x = S754_nan \/ y = S754_nan.
Proof.
  destruct x as [sx|sx| |sx mx ex], y as [sy|sy| |sy my ey]; simpl;
    intros H; try discriminate H; auto.
Qed.

Lemma ltb_leb (x y : float) : (x <? y) = true -> (x <=? y) = true.
Proof.
  rewrite ltb_spec, leb_spec. unfold SFltb, SFleb.
  destruct (SFcompare (Prim2SF x) (Prim2SF y)) as [[]|]; congruence.
Qed.

Lemma leb_is_number (x y : float) :
  (x <=? y) = true -> is_number x /\ is_number y.
Proof.
  rewrite leb_spec. unfold SFleb, is_number.
  destruct (Prim2SF x), (Prim2SF y); simpl; intros H;
    try discriminate H; split; discriminate.
Qed.

Lemma leb_false_ltb (x y : float) :
  is_number x -> is_number y -> (x <=? y) = false -> (y <? x) = true.
Proof.
  unfold is_number. rewrite ltb_spec, leb_spec. unfold SFltb, SFleb.
  intros Hx Hy. rewrite (SFcompare_antisym (Prim2SF x) (Prim2SF y)).
  destruct (SFcompare (Prim2SF x) (Prim2SF y)) as [[]|] eqn:E; simpl;
    try congruence.
  destruct (SFcompare_nan _ _ E); contradiction.
Qed.

Lemma ltb_leb_false (x y : float) : (y <? x) = true -> (x <=? y) = false.
Proof.
  rewrite ltb_spec, leb_spec. unfold SFltb, SFleb.
  rewrite (SFcompare_antisym (Prim2SF x) (Prim2SF y)).
  destruct (SFcompare (Prim2SF x) (Prim2SF y)) as [[]|]; simpl; congruence.
Qed.

Lemma in_unit_bounds (p : float) :
  in_unit p <-> (0 <=? p) = true /\ (p <=? 1) = true.
Proof. unfold in_unit, in_unitb. apply andb_true_iff. Qed.

(** The clamp never leaves the unit interval, whatever it is applied to
    (an infinity or a NaN included). *)
Lemma clamp_in_unit (x : float) : in_unit (clamp x).
Proof.
  apply in_unit_bounds. unfold clamp, Py.max, Py.min.
  destruct (x <? 1.0) eqn:H1.
  - destruct (0.0 <? x) eqn:H0.
    + split; apply ltb_leb; assumption.
    + split; reflexivity.
  - split; reflexivity.
Qed.

Lemma float_neq_0_1 : 0 <> 1.
Proof. intros H. apply (f_equal Prim2SF) in H. vm_compute in H. discriminate H. Qed.

End FloatOrder.

(** ** Dictionaries *)

Lemma contains_getitem {A : Type} (d : Py.dict A) (k : string) :
  Py.contains k d = true -> exists a, Py.lookup d k = Some a /\ Py.getitem d k = Py.Return a.
Proof.
  unfold Py.contains, Py.getitem. destruct (Py.lookup d k) as [a|].
  - intros _. exists a. split; reflexivity.
  - discriminate.
Qed.

Lemma lookup_contains {A : Type} (d : Py.dict A) (k : string) (a : A) :
  Py.lookup d k = Some a -> Py.contains k d = true /\ Py.getitem d k = Py.Return a.
Proof. unfold Py.contains, Py.getitem. intros ->. split; reflexivity. Qed.

Lemma lookup_none_contains {A : Type} (d : Py.dict A) (k : string) :
  Py.lookup d k = None -> Py.contains k d = false.
Proof. unfold Py.contains. intros ->. reflexivity. Qed.

Lemma lookup_In {A : Type} (d : Py.dict A) (k : string) (a : A) :
  Py.lookup d k = Some a -> In a (map snd d).
Proof.
  induction d as [|[k' a'] d IH]; simpl.
  - discriminate.
  - destruct (String.eqb k k').
    + intros [= ->]. left. reflexivity.
    + intros H. right. apply IH, H.
Qed.

(** Every entry of [SCALERS] passes [config_ok]. *)
Lemma SCALERS_ok (feature_name : string) (c : config) :
  Py.lookup SCALERS feature_name = Some c -> config_ok c = true.
Proof.
  intros H. apply lookup_In in H.
  assert (All : forallb config_ok (map snd SCALERS) = true) by (vm_compute; reflexivity).
  rewrite forallb_forall in All. apply All, H.
Qed.

(** ** The normalizer, branch by branch *)

Lemma process_range (value : Py.value) (feature_name : string) (min max : Z) :
  Py.lookup SCALERS feature_name = Some (Range min max) ->
  process_input_value value feature_name
  = Py.try_except (scale min max value) (Py.Return 0.0%float).
Proof.
  intros H. unfold process_input_value.
  destruct (lookup_contains _ _ _ H) as [-> ->]. reflexivity.
Qed.

Lemma process_categories (value : Py.value) (feature_name : string) (table : Py.dict float) :
  Py.lookup SCALERS feature_name = Some (Categories table) ->
  process_input_value value feature_name
  = if Py.contains (Py.str value) table then Py.getitem table (Py.str value)
    else match numeric_key table value with
         | Some x => Py.Return x
         | None =>
             if Py.str_in (Py.lower (Py.str value)) ["on"; "true"; "yes"]
             then Py.Return 1.0%float else Py.Return 0.0%float
         end.
Proof.
  intros H. unfold process_input_value.
  destruct (lookup_contains _ _ _ H) as [-> ->]. cbn [Py.bind].
  destruct (Py.contains (Py.str value) table); [reflexivity|].
  destruct (numeric_key table value); [reflexivity|].
  destruct (Py.str_in _ ["on"; "true"; "yes"]); [reflexivity|].
  destruct (Py.str_in _ ["off"; "false"; "no"]); reflexivity.
Qed.

Lemma process_unconfigured (value : Py.value) (feature_name : string) :
  Py.lookup SCALERS feature_name = None ->
  process_input_value value feature_name
  = match Py.float_ value with
    | Py.Return f => Py.Return f
    | Py.Raise _ =>
        if Py.str_in (Py.lower (Py.str value)) ["on"; "true"; "yes"]
        then Py.Return 1.0%float else Py.Return 0.0%float
    end.
Proof.
  intros H. unfold process_input_value.
  rewrite (lookup_none_contains _ _ H).
  destruct (Py.float_ value); [reflexivity|].
  destruct (Py.str_in _ ["on"; "true"; "yes"]); [reflexivity|].
  destruct (Py.str_in _ ["off"; "false"; "no"; "0"]); reflexivity.
Qed.

(** On a range that is [range_ok], the arithmetic raises nothing: the
    branch returns the clamped quotient whenever [float] returns. *)
Lemma scale_returns (min max : Z) (value : Py.value) (val : float) :
  range_ok min max = true ->
  Py.float_ value = Py.Return val ->
  scale min max value
  = Py.Return (clamp ((val - to_float min) / to_float (max - min))%float).
Proof.
  unfold range_ok, scale, Py.sub_int, Py.div_int, Py.float_of_int.
  fold (to_float min). fold (to_float (max - min)).
  intros Hok ->. cbn [Py.bind].
  destruct (is_infinity (to_float min)); [discriminate Hok|].
  destruct (is_infinity (to_float (max - min))); [discriminate Hok|].
  cbn [Py.bind] in *.
  destruct (PrimFloat.eqb (to_float (max - min)) 0); [discriminate Hok|].
  reflexivity.
Qed.

Lemma scale_raises (min max : Z) (value : Py.value) (e : Py.exn) :
  Py.float_ value = Py.Raise e -> scale min max value = Py.Raise e.
Proof. unfold scale. intros ->. reflexivity. Qed.

(** The numeric-key lookup only ever returns a value of the table. *)
Lemma numeric_key_In (table : Py.dict float) (value : Py.value) (x : float) :
  numeric_key table value = Some x -> In x (map snd table).
Proof.
  unfold numeric_key.
  destruct (Py.float_ value) as [f|]; cbn [Py.bind]; [|discriminate].
  destruct (Py.int_of_float f) as [n|]; cbn [Py.bind]; [|discriminate].
  destruct (Py.contains (Py.str_of_int n) table) eqn:C; [|discriminate].
  destruct (contains_getitem _ _ C) as [a [L ->]]. cbn [Py.bind].
  intros [= <-]. apply (lookup_In _ _ _ L).
Qed.

Lemma SFleb_trans (x y z : spec_float) :
  SFleb x y = true -> SFleb y z = true -> SFleb x z = true.
Proof.
  unfold SFleb.
  destruct x as [sx|sx| |sx mx ex], y as [sy|sy| |sy my ey], z as [sz|sz| |sz mz ez];
    simpl; try destruct sx; try destruct sy; try destruct sz; simpl;
    try (intros; congruence);
    rewrite ?Pos.compare_cont_spec; simpl;
    try (destruct (Z.compare_spec ex ey), (Z.compare_spec ey ez), (Z.compare_spec ex ez);
         try (destruct (Pos.compare_spec mx my));
         try (destruct (Pos.compare_spec my mz));
         try (destruct (Pos.compare_spec mx mz));
         simpl; intros; try congruence; try lia).
Qed.

Lemma leb_trans (x y z : float) :
  (x <=? y)%float = true -> (y <=? z)%float = true -> (x <=? z)%float = true.
Proof. rewrite !leb_spec. apply SFleb_trans. Qed.

Lemma leb_ltb_false (x y : float) :
  (x <=? y)%float = true -> (y <? x)%float = false.
Proof.
  intros H. destruct (y <? x)%float eqn:E; [|reflexivity].
  apply ltb_leb_false in E. congruence.
Qed.

(** ** Totality of the normalizer *)

Lemma process_input_value_total (value : Py.value) (feature_name : string) :
  exists x, process_input_value value feature_name = Py.Return x.
Proof.
  destruct (Py.lookup SCALERS feature_name) as [[min max|table]|] eqn:L.
  - rewrite (process_range _ _ _ _ L).
    destruct (scale min max value) as [x|e]; cbn; eauto.
  - rewrite (process_categories _ _ _ L).
    destruct (Py.contains (Py.str value) table) eqn:C.
    + destruct (contains_getitem _ _ C) as [a [_ ->]]. eauto.
    + destruct (numeric_key table value); [eauto|].
      destruct (Py.str_in _ _); eauto.
  - rewrite (process_unconfigured _ _ L).
    destruct (Py.float_ value); [eauto|].
    destruct (Py.str_in _ _); eauto.
Qed.

(** ** The feature vector *)

Lemma build_vector_returns (fields : Py.dict Py.value) (features : list string) :
  forall acc : list float,
  exists v,
    build_vector (JsonObject fields) features acc = Py.Return (acc ++ v)%list
    /\ map Py.Return v
       = map (fun feature => process_input_value (Py.get fields feature) feature) features.
Proof.
  induction features as [|feature rest IH]; intros acc.
  - exists []. rewrite app_nil_r. split; reflexivity.
  - destruct (process_input_value_total (Py.get fields feature) feature) as [x Hx].
    destruct (IH (acc ++ [x])%list) as [v [Hv Hmap]].
    exists (x :: v). cbn [build_vector data_get Py.bind]. rewrite Hx. cbn [Py.bind].
    rewrite Hv, <- app_assoc. split; [reflexivity|].
    cbn [map]. rewrite Hx, Hmap. reflexivity.
Qed.

(** A request whose JSON is an object, with the model loaded and both
    of its calls returning: the response and the trace. *)
Lemma predict_loaded (m : Model) (fields : Py.dict Py.value) (v : list float)
      (p : float) (c : Z) :
  build_vector (JsonObject fields) MODEL_FEATURES [] = Py.Return v ->
  predict_proba m [v] = Py.Return p ->
  model_predict m [v] = Py.Return c ->
  predict (Some m) (Py.Return (JsonObject fields))
  = ((Prediction p c (risk_level_of p), 200),
     [ LogReceived (JsonObject fields); LogInputVector v; CallPredictProba [v];
       CallPredict [v]; LogResult c p ]).
Proof.
  intros Hv Hp Hc. unfold predict, predict_body, bindM, lift, emit, ret.
  rewrite Hv. cbn [app]. rewrite Hp, Hc. reflexivity.
Qed.

(** ** The range branch *)

Lemma range_branch (feature_name : string) (min max : Z) (value : Py.value) :
  Py.lookup SCALERS feature_name = Some (Range min max) ->
  (forall val, Py.float_ value = Py.Return val ->
     process_input_value value feature_name
     = Py.Return (clamp ((val - to_float min) / to_float (max - min))%float))
  /\ (forall e, Py.float_ value = Py.Raise e ->
        process_input_value value feature_name = Py.Return 0.0%float).
Proof.
  intros L. pose proof (SCALERS_ok _ _ L) as Hok. cbn [config_ok] in Hok.
  rewrite (process_range _ _ _ _ L). split.
  - intros val Hval. rewrite (scale_returns _ _ _ _ Hok Hval). reflexivity.
  - intros e He. rewrite (scale_raises _ _ _ _ He). reflexivity.
Qed.

(** ** Risk levels *)

(** C1: for every probability in the unit interval the handler answers
    with exactly one risk level from 1 to 5, chosen by the inclusive upper
    bounds 0.30, 0.45, 0.60 and 0.80; a boundary value belongs to the
    lower bucket (0.45 is level 2, 0.450001 is level 3). *)
Theorem C1_risk_level_partition
        (m : Model) (fields : Py.dict Py.value) (p : float) (c : Z) :
  (forall a, predict_proba m a = Py.Return p) ->
  (forall a, model_predict m a = Py.Return c) ->
  in_unit p ->
  fst (predict (Some m) (Py.Return (JsonObject fields)))
  = (Prediction p c (risk_level_of p), 200)
  /\ 1 <= risk_level_of p <= 5
  /\ (risk_level_of p = 1 <-> (p <=? 0.30)%float = true)
  /\ (risk_level_of p = 2 <-> (0.30 <? p)%float = true /\ (p <=? 0.45)%float = true)
  /\ (risk_level_of p = 3 <-> (0.45 <? p)%float = true /\ (p <=? 0.60)%float = true)
  /\ (risk_level_of p = 4 <-> (0.60 <? p)%float = true /\ (p <=? 0.80)%float = true)
  /\ (risk_level_of p = 5 <-> (0.80 <? p)%float = true)
  /\ risk_level_of 0.30 = 1 /\ risk_level_of 0.30000001 = 2
  /\ risk_level_of 0.45 = 2 /\ risk_level_of 0.450001 = 3
  /\ risk_level_of 0.60 = 3 /\ risk_level_of 0.80 = 4.
Proof.
  intros Hp Hc Hu. split.
  { destruct (build_vector_returns fields MODEL_FEATURES []) as [v [Hv _]].
    rewrite (predict_loaded m fields v p c Hv (Hp _) (Hc _)). reflexivity. }
  apply in_unit_bounds in Hu. destruct Hu as [H0 H1].
  destruct (leb_is_number _ _ H1) as [Np _].
  assert (N30 : is_number 0.30) by (vm_compute; discriminate).
  assert (N45 : is_number 0.45) by (vm_compute; discriminate).
  assert (N60 : is_number 0.60) by (vm_compute; discriminate).
  assert (N80 : is_number 0.80) by (vm_compute; discriminate).
  assert (T1 : (p <=? 0.30)%float = true -> (p <=? 0.45)%float = true)
    by (intros H; apply (leb_trans _ _ _ H); reflexivity).
  assert (T2 : (p <=? 0.45)%float = true -> (p <=? 0.60)%float = true)
    by (intros H; apply (leb_trans _ _ _ H); reflexivity).
  assert (T3 : (p <=? 0.60)%float = true -> (p <=? 0.80)%float = true)
    by (intros H; apply (leb_trans _ _ _ H); reflexivity).
  unfold risk_level_of.
  destruct (p <=? 0.30)%float eqn:E1.
  { pose proof (T1 eq_refl) as E2. pose proof (T2 E2) as E3. pose proof (T3 E3) as E4.
    rewrite (leb_ltb_false _ _ E1), (leb_ltb_false _ _ E2),
            (leb_ltb_false _ _ E3), (leb_ltb_false _ _ E4).
    repeat split; try reflexivity; try lia; try discriminate;
      try (intros [? ?]; discriminate). }
  rewrite (leb_false_ltb _ _ Np N30 E1).
  destruct (p <=? 0.45)%float eqn:E2.
  { pose proof (T2 eq_refl) as E3. pose proof (T3 E3) as E4.
    rewrite (leb_ltb_false _ _ E2), (leb_ltb_false _ _ E3), (leb_ltb_false _ _ E4).
    repeat split; try reflexivity; try lia; try discriminate;
      try (intros [? ?]; discriminate). }
  rewrite (leb_false_ltb _ _ Np N45 E2).
  destruct (p <=? 0.60)%float eqn:E3.
  { pose proof (T3 eq_refl) as E4.
    rewrite (leb_ltb_false _ _ E3), (leb_ltb_false _ _ E4).
    repeat split; try reflexivity; try lia; try discriminate;
      try (intros [? ?]; discriminate). }
  rewrite (leb_false_ltb _ _ Np N60 E3).
  destruct (p <=? 0.80)%float eqn:E4.
  { rewrite (leb_ltb_false _ _ E4).
    repeat split; try reflexivity; try lia; try discriminate;
      try (intros [? ?]; discriminate). }
  rewrite (leb_false_ltb _ _ Np N80 E4).
  repeat split; try reflexivity; try lia; try discriminate;
    try (intros [? ?]; discriminate).
Qed.

Lemma C1_witness :
  fst (predict (Some {| predict_proba := fun _ => Py.Return 0.45%float;
                        model_predict := fun _ => Py.Return 0 |})
               (Py.Return (JsonObject [("Age", Py.VInt 40)])))
  = (Prediction 0.45 0 2, 200).
Proof.
  exact (proj1 (C1_risk_level_partition
                  {| predict_proba := fun _ => Py.Return 0.45%float;
                     model_predict := fun _ => Py.Return 0 |}
                  [("Age", Py.VInt 40)] 0.45%float 0
                  (fun _ => eq_refl) (fun _ => eq_refl) eq_refl)).
Defined.

(** ** Numeric ranges *)

(** C2: for each of the eight numeric-range fields and every input that
    [float] accepts (finite or not), the normalizer returns the clamp of
    [(v - min) / (max - min)], which lies between 0.0 and 1.0 also when
    the input is outside the range; when [float] raises it returns 0.0. *)
Theorem C2_linear_range_clamped (feature_name : string) :
  In feature_name linear_fields ->
  exists min max,
    Py.lookup SCALERS feature_name = Some (Range min max)
    /\ forall value,
         (forall val, Py.float_ value = Py.Return val ->
            process_input_value value feature_name
            = Py.Return (clamp ((val - to_float min) / to_float (max - min))%float)
            /\ in_unit (clamp ((val - to_float min) / to_float (max - min))%float))
         /\ (forall e, Py.float_ value = Py.Raise e ->
               process_input_value value feature_name = Py.Return 0.0%float).
Proof.
  intros Hin.
  assert (L : exists min max, Py.lookup SCALERS feature_name = Some (Range min max)).
  { cbn [linear_fields In] in Hin.
    repeat (destruct Hin as [<-|Hin]; [eexists; eexists; reflexivity|]).
    destruct Hin. }
  destruct L as [min [max L]]. exists min, max. split; [exact L|].
  intros value. destruct (range_branch _ _ _ value L) as [Hr He]. split.
  - intros val Hval. split; [apply Hr, Hval | apply clamp_in_unit].
  - exact He.
Qed.

Lemma C2_witness :
  process_input_value (Py.VInt 500) "Weight" = Py.Return 1.0%float
  /\ process_input_value (Py.VStr "49") "Age" = Py.Return 0.5%float
  /\ process_input_value (Py.VStr "n/a") "BMI" = Py.Return 0.0%float.
Proof.
  destruct (C2_linear_range_clamped "Weight") as [min1 [max1 [L1 H1]]];
    [cbn; tauto|].
  destruct (C2_linear_range_clamped "Age") as [min2 [max2 [L2 H2]]];
    [cbn; tauto|].
  destruct (C2_linear_range_clamped "BMI") as [min3 [max3 [L3 H3]]];
    [cbn; tauto|].
  injection L1 as <- <-. injection L2 as <- <-. injection L3 as <- <-.
  split; [|split].
  - exact (proj1 (proj1 (H1 (Py.VInt 500)) _ eq_refl)).
  - exact (proj1 (proj1 (H2 (Py.VStr "49")) _ eq_refl)).
  - exact (proj2 (H3 (Py.VStr "n/a")) _ eq_refl).
Defined.

(** ** Totality *)



(** ** The feature vector *)

(** C5: whatever keys the input record has, the vector handed to the
    model has exactly 18 entries, and entry [i] is the normalized value
    of the [i]-th name of the canonical order. *)
Theorem C5_feature_vector_order (fields : Py.dict Py.value) :
  exists v,
    build_vector (JsonObject fields) MODEL_FEATURES [] = Py.Return v
    /\ List.length v = 18%nat
    /\ map Py.Return v
       = map (fun feature => process_input_value (Py.get fields feature) feature)
             [ "General_Health"; "Checkup"; "Exercise"; "Skin_Cancer";
               "Other_Cancer"; "Depression"; "Diabetes"; "Arthritis"; "Sex";
               "Age"; "Height"; "Weight"; "BMI"; "Smoking"; "Alcohol"; "Fruit";
               "Green_Vegetables"; "Fried_Potato" ]
    /\ forall m : Model,
         exists r t,
           predict (Some m) (Py.Return (JsonObject fields))
           = (r, LogReceived (JsonObject fields) :: LogInputVector v
                   :: CallPredictProba [v] :: t).
Proof.
  destruct (build_vector_returns fields MODEL_FEATURES []) as [v [Hv Hmap]].
  exists v. split; [exact Hv|]. split; [|split].
  - apply (f_equal (@List.length _)) in Hmap. rewrite !length_map in Hmap. exact Hmap.
  - exact Hmap.
  - intros m. unfold predict, predict_body, bindM, lift, emit, ret.
    rewrite Hv. cbn [app].
    destruct (predict_proba m [v]); [destruct (model_predict m [v])|];
      eexists; eexists; reflexivity.
Qed.

(** ** The model check *)

(** C6: with no model loaded the handler answers with the error payload
    and status 500 whatever the request is; it logs nothing, builds no
    vector and calls no model, and the payload is not a prediction. *)
Theorem C6_model_not_loaded (request_json : Py.result body) :
  predict None request_json = ((ModelNotLoaded, 500), [])
  /\ forall p c level,
       fst (fst (predict None request_json)) <> Prediction p c level.
Proof. split; [reflexivity|]. intros p c level. discriminate. Qed.

(** ** Missing fields *)

(** C8: for each of the 18 canonical names, a record without that key
    gives the normalizer [None], and the normalizer returns 0.0: in the
    range fields, in the category fields and in the unconfigured ones. *)
Theorem C8_missing_field_zero (fields : Py.dict Py.value) (feature : string) :
  In feature MODEL_FEATURES ->
  Py.lookup fields feature = None ->
  data_get (JsonObject fields) feature = Py.Return Py.VNone
  /\ process_input_value Py.VNone feature = Py.Return 0.0%float.
Proof.
  intros Hin Habs. split.
  - cbn [data_get]. unfold Py.get. rewrite Habs. reflexivity.
  - cbn [MODEL_FEATURES In] in Hin.
    repeat (destruct Hin as [<-|Hin]; [vm_compute; reflexivity|]).
    destruct Hin.
Qed.

Lemma C8_witness :
  data_get (JsonObject [("Age", Py.VInt 40)]) "Sex" = Py.Return Py.VNone
  /\ process_input_value Py.VNone "Sex" = Py.Return 0.0%float.
Proof.
  apply (C8_missing_field_zero [("Age", Py.VInt 40)] "Sex").
  - cbn. tauto.
  - reflexivity.
Defined.

(** ** Configured fields stay in the unit interval *)

Lemma categories_in_unit (feature_name : string) (table : Py.dict float) (x : float) :
  Py.lookup SCALERS feature_name = Some (Categories table) ->
  In x (map snd table) -> in_unit x.
Proof.
  intros L Hin. pose proof (SCALERS_ok _ _ L) as Hok. cbn [config_ok] in Hok.
  rewrite forallb_forall in Hok. apply Hok, Hin.
Qed.

(** C9: for a field that has an entry in [SCALERS] the normalizer's
    result lies between 0.0 and 1.0 for every input value: the range
    branch clamps, the category values are in the interval and every
    fallback is 0.0 or 1.0. A field without an entry can leave the
    interval: [Skin_Cancer] given 5 yields 5.0. *)
Theorem C9_configured_in_unit :
  (forall (feature_name : string) (c : config) (value : Py.value),
     Py.lookup SCALERS feature_name = Some c ->
     exists x, process_input_value value feature_name = Py.Return x /\ in_unit x)
  /\ Py.lookup SCALERS "Skin_Cancer" = None
  /\ process_input_value (Py.VInt 5) "Skin_Cancer" = Py.Return 5.0%float
  /\ ~ in_unit 5.0%float.
Proof.
  split; [|split; [reflexivity|split; [reflexivity|vm_compute; discriminate]]].
  intros feature_name c value L. destruct c as [min max|table].
  - destruct (range_branch _ _ _ value L) as [Hr He].
    destruct (Py.float_ value) as [val|e] eqn:F.
    + eexists. split; [apply Hr; reflexivity|apply clamp_in_unit].
    + eexists. split; [apply (He e); reflexivity|reflexivity].
  - rewrite (process_categories _ _ _ L).
    destruct (Py.contains (Py.str value) table) eqn:C.
    + destruct (contains_getitem _ _ C) as [a [La ->]].
      exists a. split; [reflexivity|].
      apply (categories_in_unit _ _ _ L), (lookup_In _ _ _ La).
    + destruct (numeric_key table value) as [x|] eqn:K.
      * exists x. split; [reflexivity|].
        apply (categories_in_unit _ _ _ L), (numeric_key_In _ _ _ K).
      * destruct (Py.str_in _ _); eexists; split; reflexivity.
Qed.

Lemma C9_witness :
  exists x, process_input_value (Py.VFloat 1e300) "Fruit" = Py.Return x /\ in_unit x.
Proof.
  exact (proj1 C9_configured_in_unit "Fruit" (Range 0 100) (Py.VFloat 1e300) eq_refl).
Defined.

(** ** The encoding of [Sex] *)

(** C10: for [Sex] the number 1 and the string "1" are keys of the
    category map and give 0.0, while the strings "true", "yes" and "on"
    miss both lookups and give 1.0 by the token fallback: the opposite
    encoding. *)
Theorem C10_sex_opposite_encodings :
  Py.lookup SCALERS "Sex" = Some (Categories [("0", 1.0); ("1", 0.0)]%float)
  /\ Py.str (Py.VInt 1) = "1"
  /\ process_input_value (Py.VInt 1) "Sex" = Py.Return 0.0%float
  /\ process_input_value (Py.VStr "1") "Sex" = Py.Return 0.0%float
  /\ reaches_fallback (Py.VStr "true") "Sex"
  /\ reaches_fallback (Py.VStr "yes") "Sex"
  /\ reaches_fallback (Py.VStr "on") "Sex"
  /\ process_input_value (Py.VStr "true") "Sex" = Py.Return 1.0%float
  /\ process_input_value (Py.VStr "yes") "Sex" = Py.Return 1.0%float
  /\ process_input_value (Py.VStr "on") "Sex" = Py.Return 1.0%float.
Proof.
  repeat split; vm_compute; reflexivity.
Qed.

(** ** The token fallback *)

Lemma falsy_not_truthy (s : string) :
  Py.str_in s ["off"; "false"; "no"; "0"] = true \/ s = "1" ->
  Py.str_in s ["on"; "true"; "yes"] = false.
Proof.
  intros [H|H]; [|subst s; reflexivity].
  unfold Py.str_in in H. cbn [existsb] in H.
  repeat (apply orb_true_iff in H; destruct H as [H|H]);
    try discriminate H; apply String.eqb_eq in H; subst s; reflexivity.
Qed.

(** C3, as the code has it: in the fallback steps a value whose
    lowercased rendering is "on", "true" or "yes" gives 1.0, and one
    whose rendering is "off", "false", "no" or "0" gives 0.0; the
    rendering "1" is no truthy token there, and a value rendering to it
    gives the default 0.0 (so does one rendering to "0"). *)
Theorem C3_token_fallback (value : Py.value) (feature_name : string) :
  reaches_fallback value feature_name ->
  (Py.str_in (Py.lower (Py.str value)) ["on"; "true"; "yes"] = true ->
   process_input_value value feature_name = Py.Return 1.0%float)
  /\ (Py.str_in (Py.lower (Py.str value)) ["off"; "false"; "no"; "0"] = true ->
      process_input_value value feature_name = Py.Return 0.0%float)
  /\ (Py.lower (Py.str value) = "1" ->
      process_input_value value feature_name = Py.Return 0.0%float).
Proof.
  unfold reaches_fallback. intros R.
  assert (E : process_input_value value feature_name
              = if Py.str_in (Py.lower (Py.str value)) ["on"; "true"; "yes"]
                then Py.Return 1.0%float else Py.Return 0.0%float).
  { destruct (Py.lookup SCALERS feature_name) as [[min max|table]|] eqn:L.
    - destruct R.
    - destruct R as [C K]. rewrite (process_categories _ _ _ L), C, K. reflexivity.
    - destruct R as [e He]. rewrite (process_unconfigured _ _ L), He. reflexivity. }
  rewrite E. split; [|split].
  - intros ->. reflexivity.
  - intros H. rewrite (falsy_not_truthy _ (or_introl H)). reflexivity.
  - intros H. rewrite (falsy_not_truthy _ (or_intror H)). reflexivity.
Qed.

Lemma C3_witness :
  process_input_value (Py.VStr "Yes") "Diabetes" = Py.Return 0.0%float
  \/ process_input_value (Py.VStr "YES") "Diabetes" = Py.Return 1.0%float.
Proof.
  right.
  apply (proj1 (C3_token_fallback (Py.VStr "YES") "Diabetes"
                  (conj eq_refl eq_refl))).
  reflexivity.
Defined.

(** The claim as the specification words it fails: [General_Health]
    has no key "1", so the string "1" misses both lookups, reaches the
    fallback with the rendering "1", and gets 0.0, not 1.0. *)
Lemma C3_counterexample :
  reaches_fallback (Py.VStr "1") "General_Health"
  /\ Py.lower (Py.str (Py.VStr "1")) = "1"
  /\ process_input_value (Py.VStr "1") "General_Health" = Py.Return 0.0%float
  /\ process_input_value (Py.VStr "1") "General_Health" <> Py.Return 1.0%float.
Proof.
  split; [split; reflexivity|]. split; [reflexivity|]. split; [reflexivity|].
  intros H.
  apply (f_equal (fun r => match r with Py.Return x => x | Py.Raise _ => 0%float end)) in H.
  apply float_neq_0_1, H.
Qed.

(** ** Rounding of binary64 operations *)




Lemma pow2_pos (k : Z) : 0 <= k -> 0 < 2 ^ k.
Proof. intros. apply Z.pow_pos_nonneg; lia. Qed.



































Lemma INF_pos : 0 < INF.
Proof. apply pow2_pos. lia. Qed.







Lemma ext_bounds (f : Z -> Z) (v : Z) :
  (forall u, - INF <= f u <= INF) -> - INF <= ext f v <= INF.
Proof.
  intros H. pose proof INF_pos. unfold ext.
  destruct (v =? INF); [lia|]. destruct (v =? - INF); [lia|]. apply H.
Qed.











(** ** Monotonicity of the range branch *)

Lemma ltb_false_leb (x y : float) :
  is_number x -> is_number y -> (x <? y)%float = false -> (y <=? x)%float = true.
Proof.
  unfold is_number. rewrite ltb_spec, leb_spec. unfold SFltb, SFleb.
  intros Hx Hy. rewrite (SFcompare_antisym (Prim2SF x) (Prim2SF y)).
  destruct (SFcompare (Prim2SF x) (Prim2SF y)) as [[]|] eqn:E; simpl;
    try congruence.
  destruct (SFcompare_nan _ _ E); contradiction.
Qed.

Lemma leb_refl_number (x : float) : is_number x -> (x <=? x)%float = true.
Proof.
  intros N. destruct (x <? x)%float eqn:E.
  - apply ltb_leb, E.
  - apply ltb_false_leb; assumption.
Qed.







(** ** Rounded division by a positive number *)






(** ** The ends of the clamp *)



(** The clamp of a NaN is 1.0: no comparison with a NaN holds, so
    [min(1.0, nan)] keeps its first argument. *)
Lemma clamp_nan (y : float) : Prim2SF y = S754_nan -> clamp y = 1%float.
Proof.
  intros N. unfold clamp, Py.max, Py.min.
  replace (y <? 1.0)%float with false; [reflexivity|].
  symmetry. rewrite ltb_spec, N. reflexivity.
Qed.

Lemma quotient_nan (x c d : float) :
  Prim2SF x = S754_nan -> Prim2SF ((x - c) / d) = S754_nan.
Proof.
  intros N. rewrite div_spec, sub_spec, N. reflexivity.
Qed.

Lemma float_of_VInt (z : Z) :
  Py.float_of_int z = Py.Return (to_float z) \/ Py.float_of_int z = Py.Raise Py.OverflowError.
Proof.
  unfold Py.float_of_int. fold (to_float z).
  destruct (is_infinity (to_float z)); [right|left]; reflexivity.
Qed.








(** X3: a NaN input (the float NaN, or a string such as "nan" that
    [float] reads as one) is normalized to 1.0 on every range field:
    the quotient is a NaN, and [min(1.0, nan)] is 1.0. *)
Theorem range_nan_is_one
        (feature_name : string) (min max : Z) (v : Py.value) (x : float) :
  Py.lookup SCALERS feature_name = Some (Range min max) ->
  Py.float_ v = Py.Return x ->
  Prim2SF x = S754_nan ->
  process_input_value v feature_name = Py.Return 1.0%float.
Proof.
  intros L F N.
  destruct (range_branch _ _ _ v L) as [R _]. rewrite (R x F). f_equal.
  apply clamp_nan, quotient_nan, N.
Qed.

Lemma range_nan_is_one_witness :
  process_input_value (Py.VStr " NaN ") "Fried_Potato" = Py.Return 1.0%float.
Proof.
  apply (range_nan_is_one "Fried_Potato" 100 0 (Py.VStr " NaN ") nan);
    reflexivity.
Defined.

(** ** Risk levels on every float *)

(** X10: the risk level is monotone in the probability, lies between 1
    and 5 for every float whatsoever, and is 5 for a NaN (every
    comparison with a NaN fails, so the chain falls through to its
    [else]). *)
Theorem risk_level_monotone (p1 p2 : float) :
  ((p1 <=? p2)%float = true -> risk_level_of p1 <= risk_level_of p2)
  /\ 1 <= risk_level_of p1 <= 5
  /\ (Prim2SF p1 = S754_nan -> risk_level_of p1 = 5).
Proof.
  split; [|split].
  - intros L.
    assert (T : forall t, (p2 <=? t)%float = true -> (p1 <=? t)%float = true)
      by (intros t H; apply (leb_trans _ _ _ L H)).
    unfold risk_level_of.
    destruct (p2 <=? 0.30)%float eqn:A2; [rewrite (T _ A2); lia|].
    destruct (p2 <=? 0.45)%float eqn:B2;
      [rewrite (T _ B2); destruct (p1 <=? 0.30)%float; lia|].
    destruct (p2 <=? 0.60)%float eqn:C2;
      [rewrite (T _ C2); destruct (p1 <=? 0.30)%float, (p1 <=? 0.45)%float; lia|].
    destruct (p2 <=? 0.80)%float eqn:D2;
      [rewrite (T _ D2);
       destruct (p1 <=? 0.30)%float, (p1 <=? 0.45)%float, (p1 <=? 0.60)%float; lia|].
    destruct (p1 <=? 0.30)%float, (p1 <=? 0.45)%float, (p1 <=? 0.60)%float,
             (p1 <=? 0.80)%float; lia.
  - unfold risk_level_of.
    destruct (p1 <=? 0.30)%float, (p1 <=? 0.45)%float, (p1 <=? 0.60)%float,
             (p1 <=? 0.80)%float; lia.
  - intros N. unfold risk_level_of. rewrite !leb_spec, N. reflexivity.
Qed.

Lemma risk_level_monotone_witness :
  risk_level_of 0.2 <= risk_level_of 0.7 /\ risk_level_of nan = 5.
Proof.
  split.
  - apply (proj1 (risk_level_monotone 0.2 0.7)). reflexivity.
  - apply (proj2 (proj2 (risk_level_monotone nan 0))). reflexivity.
Defined.

(** ** Outcomes of the handler *)

(** X8: with a model loaded, the handler answers 200 exactly when the
    request's JSON is an object and both model calls return, and the
    payload is then the probability, the class and the level of the
    probability, with nothing logged as an error; in every other case it answers 500 with the exception
    that was raised (by reading the JSON, by [data.get] on a body that
    is no object, by [predict_proba] or by [predict]) and logs that
    exception last. *)
Theorem predict_outcome (m : Model) (request_json : Py.result body) :
  let r := predict (Some m) request_json in
  (snd (fst r) = 200
   /\ exists fields v p c,
        request_json = Py.Return (JsonObject fields)
        /\ build_vector (JsonObject fields) MODEL_FEATURES [] = Py.Return v
        /\ predict_proba m [v] = Py.Return p
        /\ model_predict m [v] = Py.Return c
        /\ fst (fst r) = Prediction p c (risk_level_of p)
        /\ snd r = [ LogReceived (JsonObject fields); LogInputVector v;
                     CallPredictProba [v]; CallPredict [v]; LogResult c p ])
  \/ (snd (fst r) = 500
      /\ exists e t,
           fst (fst r) = Failed e
           /\ snd r = (t ++ [LogError e])%list
           /\ (request_json = Py.Raise e
               \/ (request_json = Py.Return JsonOther /\ e = Py.AttributeError)
               \/ exists fields v,
                    request_json = Py.Return (JsonObject fields)
                    /\ build_vector (JsonObject fields) MODEL_FEATURES [] = Py.Return v
                    /\ (predict_proba m [v] = Py.Raise e
                        \/ (exists p, predict_proba m [v] = Py.Return p)
                           /\ model_predict m [v] = Py.Raise e))).
Proof.
  cbv zeta. destruct request_json as [[fields|]|e].
  - destruct (build_vector_returns fields MODEL_FEATURES []) as [v [Hv _]].
    cbn [app] in Hv.
    unfold predict, predict_body, bindM, lift, emit, ret. rewrite Hv. cbn [app].
    destruct (predict_proba m [v]) as [p|e] eqn:P.
    + destruct (model_predict m [v]) as [c|e] eqn:C.
      * left. split; [reflexivity|]. exists fields, v, p, c.
        repeat split; first [assumption|reflexivity].
      * right. split; [reflexivity|]. eexists. eexists.
        split; [reflexivity|]. split; [reflexivity|].
        right. right. exists fields, v. split; [reflexivity|]. split; [exact Hv|].
        right. split; [exists p; first [exact P|reflexivity]|first [exact C|reflexivity]].
    + right. split; [reflexivity|]. eexists. eexists.
      split; [reflexivity|]. split; [reflexivity|].
      right. right. exists fields, v. split; [reflexivity|]. split; [exact Hv|].
      left. first [exact P|reflexivity].
  - right. split; [reflexivity|]. eexists. eexists.
    split; [reflexivity|]. split; [reflexivity|]. right. left. split; reflexivity.
  - right. split; [reflexivity|]. exists e, [].
    split; [reflexivity|]. split; [reflexivity|]. left. reflexivity.
Qed.

(** X9: the handler hands the model nothing but one row of 18
    normalized values, built from a JSON object, and it calls
    [predict] only after [predict_proba] has returned on that row. *)
Theorem model_calls_well_formed
        (m : Model) (request_json : Py.result body) (a : list (list float)) :
  let t := snd (predict (Some m) request_json) in
  In (CallPredictProba a) t \/ In (CallPredict a) t ->
  exists fields v,
    request_json = Py.Return (JsonObject fields)
    /\ build_vector (JsonObject fields) MODEL_FEATURES [] = Py.Return v
    /\ a = [v] /\ List.length v = 18%nat
    /\ (In (CallPredict a) t -> exists p, predict_proba m a = Py.Return p).
Proof.
  cbv zeta. destruct request_json as [[fields|]|e].
  - destruct (build_vector_returns fields MODEL_FEATURES []) as [v [Hv Hmap]].
    cbn [app] in Hv.
    assert (Len : List.length v = 18%nat).
    { apply (f_equal (@List.length _)) in Hmap. rewrite !length_map in Hmap. exact Hmap. }
    unfold predict, predict_body, bindM, lift, emit, ret. rewrite Hv. cbn [app].
    destruct (predict_proba m [v]) as [p|e] eqn:P.
    + destruct (model_predict m [v]) as [c|e] eqn:C; cbn [snd app In];
        intros H;
        assert (E : a = [v])
          by (destruct H as [H|H];
              repeat (destruct H as [H|H]; try discriminate H);
              try (injection H as H; symmetry; exact H); destruct H);
        exists fields, v; repeat split; try assumption;
        intros _; exists p; rewrite E; exact P.
    + cbn [snd app In]. intros H.
      assert (E : a = [v])
        by (destruct H as [H|H];
            repeat (destruct H as [H|H]; try discriminate H);
            try (injection H as H; symmetry; exact H); destruct H).
      exists fields, v. repeat split; try assumption.
      intros H'. repeat (destruct H' as [H'|H']; try discriminate H'). destruct H'.
  - cbn. intros [H|H]; repeat (destruct H as [H|H]; try discriminate H); destruct H.
  - cbn. intros [H|H]; repeat (destruct H as [H|H]; try discriminate H); destruct H.
Qed.

Lemma model_calls_well_formed_witness :
  exists fields v,
    Py.Return (JsonObject [("Age", Py.VInt 40)]) = Py.Return (JsonObject fields)
    /\ build_vector (JsonObject fields) MODEL_FEATURES [] = Py.Return v
    /\ [[0; 0; 0; 0; 0; 0; 0; 0; 0; 0.35483870967741937; 0; 0; 0; 0; 0; 0; 0; 0]%float]
       = [v]
    /\ List.length v = 18%nat.
Proof.
  destruct (model_calls_well_formed
              {| predict_proba := fun _ => Py.Raise Py.ValueError;
                 model_predict := fun _ => Py.Return 0 |}
              (Py.Return (JsonObject [("Age", Py.VInt 40)]))
              [[0; 0; 0; 0; 0; 0; 0; 0; 0; 0.35483870967741937; 0; 0; 0; 0; 0; 0; 0; 0]%float])
    as [fields [v [H1 [H2 [H3 [H4 _]]]]]].
  - left. cbn. right. right. left. reflexivity.
  - exists fields, v. repeat split; assumption.
Defined.

(** ** What the vector depends on *)

Lemma build_vector_ext (fields1 fields2 : Py.dict Py.value) (features : list string) :
  (forall f, In f features -> Py.get fields1 f = Py.get fields2 f) ->
  forall acc,
    build_vector (JsonObject fields1) features acc
    = build_vector (JsonObject fields2) features acc.
Proof.
  induction features as [|feature rest IH]; intros H acc.
  - reflexivity.
  - cbn [build_vector data_get Py.bind]. rewrite (H feature (or_introl eq_refl)).
    destruct (process_input_value (Py.get fields2 feature) feature) as [x|e];
      cbn [Py.bind]; [|reflexivity].
    apply IH. intros f Hf. apply H. right. exact Hf.
Qed.

(** X7: the handler reads the 18 canonical fields and nothing else: two
    JSON objects that agree on them ([data.get] gives the same value, a
    missing key counting as [None]) yield the same vector and, for any
    model, the same response. *)
Theorem extra_keys_ignored (fields1 fields2 : Py.dict Py.value) :
  (forall f, In f MODEL_FEATURES -> Py.get fields1 f = Py.get fields2 f) ->
  build_vector (JsonObject fields1) MODEL_FEATURES []
  = build_vector (JsonObject fields2) MODEL_FEATURES []
  /\ forall m : Model,
       fst (predict (Some m) (Py.Return (JsonObject fields1)))
       = fst (predict (Some m) (Py.Return (JsonObject fields2))).
Proof.
  intros H. pose proof (build_vector_ext _ _ _ H []) as E. split; [exact E|].
  intros m. unfold predict, predict_body, bindM, lift, emit, ret. rewrite E.
  destruct (build_vector (JsonObject fields2) MODEL_FEATURES []) as [v|e];
    [|reflexivity].
  cbn [app]. destruct (predict_proba m [v]); [|reflexivity].
  destruct (model_predict m [v]); reflexivity.
Qed.

Lemma extra_keys_ignored_witness :
  build_vector (JsonObject [("Age", Py.VInt 40); ("Name", Py.VStr "x")]) MODEL_FEATURES []
  = build_vector (JsonObject [("Sex", Py.VNone); ("Age", Py.VInt 40)]) MODEL_FEATURES [].
Proof.
  apply (proj1 (extra_keys_ignored [("Age", Py.VInt 40); ("Name", Py.VStr "x")]
                                   [("Sex", Py.VNone); ("Age", Py.VInt 40)]
     (fun f Hf => ltac:(cbn [MODEL_FEATURES In] in Hf;
                        repeat (destruct Hf as [<-|Hf]; [reflexivity|]);
                        destruct Hf)))).
Defined.

(** ** Fields without a scaler *)

(** X6: four of the 18 canonical fields have no entry in [SCALERS]; on
    them every input that [float] accepts is returned as that float,
    unscaled and unclamped, so the vector can hold any float there, an
    infinity or a NaN included. *)
Theorem unscaled_passthrough (feature_name : string) (value : Py.value) (f : float) :
  In feature_name unscaled_fields ->
  Py.float_ value = Py.Return f ->
  filter (fun name => negb (Py.contains name SCALERS)) MODEL_FEATURES = unscaled_fields
  /\ process_input_value value feature_name = Py.Return f.
Proof.
  intros Hin F. split; [reflexivity|].
  assert (L : Py.lookup SCALERS feature_name = None).
  { cbn [unscaled_fields In] in Hin.
    repeat (destruct Hin as [<-|Hin]; [reflexivity|]). destruct Hin. }
  rewrite (process_unconfigured _ _ L), F. reflexivity.
Qed.

Lemma unscaled_passthrough_witness :
  process_input_value (Py.VStr "-inf") "Depression" = Py.Return neg_infinity.
Proof.
  apply (proj2 (unscaled_passthrough "Depression" (Py.VStr "-inf") neg_infinity
                  ltac:(cbn; tauto) eq_refl)).
Defined.

(** ** The model at start-up *)



(** ** Integers inside a range *)

Lemma SFltb_trans (x y z : spec_float) :
  SFltb x y = true -> SFltb y z = true -> SFltb x z = true.
Proof.
  unfold SFltb.
  destruct x as [sx|sx| |sx mx ex], y as [sy|sy| |sy my ey], z as [sz|sz| |sz mz ez];
    simpl; try destruct sx; try destruct sy; try destruct sz; simpl;
    try (intros; congruence);
    rewrite ?Pos.compare_cont_spec; simpl;
    try (destruct (Z.compare_spec ex ey), (Z.compare_spec ey ez), (Z.compare_spec ex ez);
         try (destruct (Pos.compare_spec mx my));
         try (destruct (Pos.compare_spec my mz));
         try (destruct (Pos.compare_spec mx mz));
         simpl; intros; try congruence; try lia).
Qed.

Lemma ltb_trans (x y z : float) :
  (x <? y)%float = true -> (y <? z)%float = true -> (x <? z)%float = true.
Proof. rewrite !ltb_spec. apply SFltb_trans. Qed.

Lemma zrange_In (lo hi a : Z) : lo <= a < hi -> In a (zrange lo hi).
Proof.
  intros H. unfold zrange. apply in_map_iff. exists (Z.to_nat (a - lo)).
  split; [lia|]. apply in_seq. lia.
Qed.

Lemma strictly_ordered_trans (feature_name : string) (up : bool) (a b c : Z) :
  strictly_ordered feature_name up a b = true ->
  strictly_ordered feature_name up b c = true ->
  strictly_ordered feature_name up a c = true.
Proof.
  unfold strictly_ordered.
  destruct (process_input_value (Py.VInt a) feature_name) as [ra|]; [|discriminate].
  destruct (process_input_value (Py.VInt b) feature_name) as [rb|]; [|discriminate].
  destruct (process_input_value (Py.VInt c) feature_name) as [rc|];
    [|intros _ H; exact H].
  destruct up; intros H1 H2.
  - apply (ltb_trans _ _ _ H1 H2).
  - apply (ltb_trans _ _ _ H2 H1).
Qed.

Lemma neighbours_chain (feature_name : string) (min max : Z) :
  neighbours_ordered feature_name min max = true ->
  forall (n : nat) (a : Z),
    Z.min min max <= a -> a + Z.of_nat (S n) <= Z.max min max ->
    strictly_ordered feature_name (min <? max) a (a + Z.of_nat (S n)) = true.
Proof.
  intros N. unfold neighbours_ordered in N. rewrite forallb_forall in N.
  induction n as [|n IH]; intros a Lo Hi.
  - change (Z.of_nat 1) with 1. apply N, zrange_In. lia.
  - apply strictly_ordered_trans with (b := a + Z.of_nat (S n)).
    + apply IH; lia.
    + replace (a + Z.of_nat (S (S n))) with (a + Z.of_nat (S n) + 1) by lia.
      apply N, zrange_In. lia.
Qed.

(** X4: inside a range no two integers are merged: for ints [a < b]
    between the two bounds the normalized values are strictly ordered,
    upwards on the ranges that run upwards and downwards on the inverted
    ones. *)
Theorem range_strict_on_integers (feature_name : string) (a b : Z) :
  In feature_name linear_fields ->
  exists min max,
    Py.lookup SCALERS feature_name = Some (Range min max)
    /\ (Z.min min max <= a -> a < b -> b <= Z.max min max ->
        exists ra rb,
          process_input_value (Py.VInt a) feature_name = Py.Return ra
          /\ process_input_value (Py.VInt b) feature_name = Py.Return rb
          /\ (if min <? max then (ra <? rb)%float else (rb <? ra)%float) = true).
Proof.
  intros Hin.
  assert (K : exists min max,
             Py.lookup SCALERS feature_name = Some (Range min max)
             /\ neighbours_ordered feature_name min max = true).
  { cbn [linear_fields In] in Hin.
    repeat (destruct Hin as [<-|Hin];
            [eexists; eexists; split; [reflexivity|vm_compute; reflexivity]|]).
    destruct Hin. }
  destruct K as [min [max [L N]]]. exists min, max. split; [exact L|].
  intros Lo Hab Hi.
  pose proof (neighbours_chain _ _ _ N (Z.to_nat (b - a - 1)) a Lo ltac:(lia)) as Hs.
  replace (a + Z.of_nat (S (Z.to_nat (b - a - 1)))) with b in Hs by lia.
  unfold strictly_ordered in Hs.
  destruct (process_input_value (Py.VInt a) feature_name) as [ra|]; [|discriminate Hs].
  destruct (process_input_value (Py.VInt b) feature_name) as [rb|]; [|discriminate Hs].
  exists ra, rb. repeat split. exact Hs.
Qed.

Lemma range_strict_on_integers_witness :
  exists ra rb,
    process_input_value (Py.VInt 3) "Alcohol" = Py.Return ra
    /\ process_input_value (Py.VInt 29) "Alcohol" = Py.Return rb
    /\ (rb <? ra)%float = true.
Proof.
  destruct (range_strict_on_integers "Alcohol" 3 29 ltac:(cbn; tauto))
    as [min [max [L H]]].
  injection L as <- <-. apply H; cbn; lia.
Defined.

(** ** Categorical fields *)

(** Both fallback values are levels of every category table. *)
Lemma fallback_levels (feature_name : string) (table : Py.dict float) :
  Py.lookup SCALERS feature_name = Some (Categories table) ->
  In 0.0%float (map snd table) /\ In 1.0%float (map snd table).
Proof.
  intros L.
  assert (K : In (Categories table) (map snd SCALERS)) by (apply (lookup_In _ _ _ L)).
  cbn in K.
  repeat (destruct K as [K|K];
          [try discriminate K; injection K as <-; cbn; tauto|]).
  destruct K.
Qed.

(** X5: on a categorical field the normalizer only ever returns one of
    the levels configured for that field, whatever the input: a label
    or numeric key that is found gives its level, and the fallback
    values 1.0 and 0.0 are levels of every table. *)
Theorem categorical_returns_level
        (feature_name : string) (table : Py.dict float) (value : Py.value) :
  Py.lookup SCALERS feature_name = Some (Categories table) ->
  exists x,
    process_input_value value feature_name = Py.Return x
    /\ In x (map snd table).
Proof.
  intros L. destruct (fallback_levels _ _ L) as [Z0 Z1].
  rewrite (process_categories _ _ _ L).
  destruct (Py.contains (Py.str value) table) eqn:C.
  - destruct (contains_getitem _ _ C) as [a [La ->]].
    exists a. split; [reflexivity|]. apply (lookup_In _ _ _ La).
  - destruct (numeric_key table value) as [x|] eqn:K.
    + exists x. split; [reflexivity|]. apply (numeric_key_In _ _ _ K).
    + destruct (Py.str_in _ _); eexists; (split; [reflexivity|assumption]).
Qed.

Lemma categorical_returns_level_witness :
  exists x,
    process_input_value (Py.VStr "maybe") "Diabetes" = Py.Return x
    /\ In x [0.0; 0.33; 0.66; 1.0]%float.
Proof.
  exact (categorical_returns_level "Diabetes" _ (Py.VStr "maybe") eq_refl).
Defined.

(** ** The rendering of a float is no key of a binary field *)

Lemma length_append (s1 s2 : string) :
  String.length (s1 ++ s2) = (String.length s1 + String.length s2)%nat.
Proof. induction s1 as [|c s1 IH]; cbn; [reflexivity|]. rewrite IH. reflexivity. Qed.

Lemma length_substring_0 (n : nat) (s : string) :
  (n <= String.length s)%nat -> String.length (substring 0 n s) = n.
Proof.
  revert s. induction n as [|n IH]; intros s H.
  - destruct s; reflexivity.
  - destruct s as [|c s]; cbn in H; [lia|]. cbn. rewrite IH by lia. reflexivity.
Qed.

(** Every layout has a digit and a point, or an exponent with its sign. *)
Lemma layout_length (ds : string) (decpt : Z) :
  (2 <= String.length (Py.layout ds decpt))%nat.
Proof.
  unfold Py.layout.
  destruct ((decpt <=? -4) || (16 <? decpt)).
  - rewrite !length_append. cbn [String.length].
    destruct (decpt - 1 <? 0); cbn [String.length]; lia.
  - destruct (decpt <=? 0) eqn:D0.
    + rewrite !length_append. cbn [String.length]. lia.
    + destruct (Z.of_nat (String.length ds) <=? decpt) eqn:D1.
      * rewrite !length_append. cbn [String.length]. lia.
      * apply Z.leb_gt in D0, D1. rewrite !length_append.
        rewrite length_substring_0 by lia. cbn [String.length]. lia.
Qed.

Lemma repr_float_length (f : float) : (2 <= String.length (Py.repr_float f))%nat.
Proof.
  unfold Py.repr_float. destruct (Prim2SF f) as [s|s| |s m e].
  - destruct s; cbn; lia.
  - destruct s; cbn; lia.
  - cbn; lia.
  - destruct (Py.shortest_digits _ _ _ _ _) as [c0 k0].
    destruct (Py.drop_zeros _ _ _) as [c k].
    rewrite length_append. pose proof (layout_length (Py.str_of_int c)
      (Z.of_nat (String.length (Py.str_of_int c)) + k)). lia.
Qed.

Lemma short_key_absent (f : float) (k : string) :
  String.length k = 1%nat -> String.eqb (Py.repr_float f) k = false.
Proof.
  intros H. apply String.eqb_neq. intros E.
  pose proof (repr_float_length f) as L. rewrite E, H in L. lia.
Qed.

(** X12: on Sex, Exercise and Smoking a float input counts as its integer
    part when that is 0 or 1: its rendering is no key of the category
    map, so the second lookup applies with [str(int(float(value)))],
    and the result is the one of that int (0.9 and -0.5 are read as 0,
    1.5 as 1). *)
Theorem binary_field_truncates (feature_name : string) (x : float) (n : Z) :
  In feature_name binary_fields ->
  Py.int_of_float x = Py.Return n ->
  n = 0 \/ n = 1 ->
  process_input_value (Py.VFloat x) feature_name
  = process_input_value (Py.VInt n) feature_name.
Proof.
  intros Hin Hn H01.
  assert (K : exists a b,
             Py.lookup SCALERS feature_name
             = Some (Categories [("0", a); ("1", b)])).
  { cbn [binary_fields In] in Hin.
    repeat (destruct Hin as [<-|Hin]; [eexists; eexists; reflexivity|]).
    destruct Hin. }
  destruct K as [a [b K]].
  rewrite (process_categories _ _ _ K).
  assert (C : Py.contains (Py.str (Py.VFloat x)) [("0", a); ("1", b)] = false).
  { unfold Py.contains. cbn [Py.str Py.lookup].
    rewrite !short_key_absent by reflexivity. reflexivity. }
  rewrite C. unfold numeric_key. cbn [Py.float_ Py.bind]. rewrite Hn. cbn [Py.bind].
  destruct H01 as [-> | ->].
  - transitivity (Py.Return a : Py.result float); [reflexivity|].
    symmetry. rewrite (process_categories _ _ _ K). reflexivity.
  - transitivity (Py.Return b : Py.result float); [reflexivity|].
    symmetry. rewrite (process_categories _ _ _ K). reflexivity.
Qed.

Lemma binary_field_truncates_witness :
  process_input_value (Py.VFloat 0.9) "Sex" = process_input_value (Py.VInt 0) "Sex"
  /\ process_input_value (Py.VFloat 1.5) "Smoking"
     = process_input_value (Py.VInt 1) "Smoking".
Proof.
  split.
  - apply (binary_field_truncates "Sex" 0.9 0); [cbn; tauto|reflexivity|left; reflexivity].
  - apply (binary_field_truncates "Smoking" 1.5 1);
      [cbn; tauto|reflexivity|right; reflexivity].
Defined.

(** ** The port *)

Lemma uint_digits (d : Decimal.uint) :
  Forall (fun c => Py.is_digit c = true)
         (list_ascii_of_string (NilEmpty.string_of_uint d)).
Proof.
  induction d; cbn; constructor; try reflexivity; assumption.
Qed.

Lemma take_digits_uint (d : Decimal.uint) :
  forall acc k,
    Py.take_digits acc k (list_ascii_of_string (NilEmpty.string_of_uint d))
    = (uint_value acc d, k + Z.of_nat (Decimal.nb_digits d), []).
Proof.
  induction d; intros acc k;
    [cbn; f_equal; f_equal; lia | ..];
    cbn [NilEmpty.string_of_uint list_ascii_of_string Py.take_digits
         uint_value Decimal.nb_digits];
    change (Py.is_digit _) with true; cbv iota; rewrite IHd;
    match goal with
    | |- context [Py.digit_value ?c] =>
        let v := eval vm_compute in (Py.digit_value c) in
        change (Py.digit_value c) with v
    end;
    f_equal; f_equal; lia.
Qed.

Lemma uint_value_acc (d : Decimal.uint) :
  forall acc : positive, uint_value (Zpos acc) d = Zpos (Pos.of_uint_acc d acc).
Proof.
  induction d; intros acc; cbn [uint_value Pos.of_uint_acc];
    [reflexivity | ..]; rewrite <- IHd; f_equal; lia.
Qed.

Lemma uint_value_0 (d : Decimal.uint) : uint_value 0 d = Z.of_N (Pos.of_uint d).
Proof.
  induction d; cbn [uint_value Pos.of_uint];
    [reflexivity | exact IHd | ..];
    change (10 * 0 + _) with (Zpos 1) at 1 || idtac;
    match goal with
    | |- uint_value ?a _ = _ =>
        let v := eval vm_compute in a in change a with v
    end;
    rewrite uint_value_acc; reflexivity.
Qed.

Lemma uint_value_pos (p : positive) : uint_value 0 (Pos.to_uint p) = Zpos p.
Proof. rewrite uint_value_0, DecimalPos.Unsigned.of_to. reflexivity. Qed.

Lemma lstrip_digits (l : list ascii) :
  Forall (fun c => Py.is_digit c = true) l -> Py.lstrip l = l.
Proof.
  intros F. destruct F as [|c l Hc F]; [reflexivity|].
  cbn [Py.lstrip]. replace (Py.is_space c) with false; [reflexivity|].
  unfold Py.is_digit, Py.is_space in *. apply andb_true_iff in Hc. destruct Hc as [A B].
  apply Nat.leb_le in A. apply Nat.leb_le in B. symmetry.
  apply orb_false_iff. split.
  - apply Nat.eqb_neq. lia.
  - apply andb_false_iff. right. apply Nat.leb_gt. lia.
Qed.

Lemma strip_digits (l : list ascii) :
  Forall (fun c => Py.is_digit c = true) l -> Py.strip l = l.
Proof.
  intros F. unfold Py.strip. rewrite (lstrip_digits l F).
  rewrite lstrip_digits by (apply Forall_rev, F). apply rev_involutive.
Qed.

Lemma drop_underscores_digits (l : list ascii) :
  Forall (fun c => Py.is_digit c = true) l ->
  forall prev, Ascii.eqb prev "_" = false -> Py.drop_underscores prev l = Some l.
Proof.
  induction 1 as [|c l Hc F IH]; intros prev Hp; cbn [Py.drop_underscores].
  - rewrite Hp. reflexivity.
  - assert (Cu : Ascii.eqb c "_" = false).
    { apply Ascii.eqb_neq. intros ->. discriminate Hc. }
    rewrite Cu, Hp. cbn [andb]. rewrite (IH c Cu). reflexivity.
Qed.

Lemma take_sign_digits (l : list ascii) :
  Forall (fun c => Py.is_digit c = true) l -> Py.take_sign l = (false, l).
Proof.
  intros F. destruct F as [|c l Hc F]; [reflexivity|].
  unfold Py.take_sign.
  destruct c as [[] [] [] [] [] [] [] []]; try reflexivity; discriminate Hc.
Qed.

(** [int(str(n))] is [n] for a natural number [n]. *)
Lemma int_of_str_of_int (n : Z) : 0 <= n -> int_of_str (Py.str_of_int n) = Py.Return n.
Proof.
  intros Hn. destruct n as [|p|p]; [reflexivity| |lia].
  unfold Py.str_of_int. cbn [Z.to_int NilZero.string_of_int].
  assert (Hd : Pos.to_uint p <> Decimal.Nil).
  { intros E. pose proof (DecimalPos.Unsigned.of_to p) as O. rewrite E in O.
    discriminate O. }
  assert (E : NilZero.string_of_uint (Pos.to_uint p)
              = NilEmpty.string_of_uint (Pos.to_uint p)).
  { unfold NilZero.string_of_uint. destruct (Pos.to_uint p); [contradiction|..]; reflexivity. }
  rewrite E. pose proof (uint_digits (Pos.to_uint p)) as F.
  unfold int_of_str.
  rewrite (strip_digits _ F), (drop_underscores_digits _ F " " eq_refl),
          (take_sign_digits _ F), take_digits_uint, uint_value_pos.
  replace (0 <? 0 + Z.of_nat (Decimal.nb_digits (Pos.to_uint p))) with true; [reflexivity|].
  symmetry. apply Z.ltb_lt.
  destruct (Pos.to_uint p); [contradiction|..]; cbn [Decimal.nb_digits]; lia.
Qed.

(** X13: the service listens on all interfaces, on port 7860 unless
    [PORT] is set; a [PORT] holding the decimal rendering of a port
    number selects that port, and one that is no integer numeral (the
    empty string, for one) stops the start-up with a ValueError before
    the server runs. *)
Theorem main_port (n : Z) :
  0 <= n <= 65535 ->
  main None = Py.Return ("0.0.0.0", 7860)
  /\ main (Some (Py.str_of_int n)) = Py.Return ("0.0.0.0", n)
  /\ main (Some EmptyString) = Py.Raise Py.ValueError
  /\ forall s e, main (Some s) = Py.Raise e -> e = Py.ValueError.
Proof.
  intros Hn. split; [reflexivity|]. split; [|split; [reflexivity|]].
  - unfold main. rewrite int_of_str_of_int by lia. reflexivity.
  - intros s e. unfold main, int_of_str.
    destruct (Py.drop_underscores _ _) as [t|]; cbn [Py.bind];
      [|intros [= <-]; reflexivity].
    destruct (Py.take_sign t) as [neg u].
    destruct (Py.take_digits 0 0 u) as [[d k] [|c r]]; cbn [Py.bind];
      [|intros [= <-]; reflexivity].
    destruct (0 <? k); cbn [Py.bind]; [discriminate|intros [= <-]; reflexivity].
Qed.

Lemma main_port_witness :
  main (Some "8080") = Py.Return ("0.0.0.0", 8080).
Proof.
  apply (proj1 (proj2 (main_port 8080 ltac:(lia)))).
Defined.
